(** * ZX.py: the Zephara Xcel home-financing simulator

    A shallow embedding of the computational part of [ZX.py]:
    [zx_simulator], [traditional_loan_simulator] and the input checks and
    calls of [main].  The Streamlit widgets, the plots and the spreadsheet
    export have no computational content and are left out.

    Number model.  Python's numbers are read as exact rationals ([Q]): the
    operators [+], [-], [*], [/] and [**] are the field operations, and the
    rounding of binary64 is not part of the model.  Statements are therefore
    made up to [==] (equality of rationals), and a property the program has
    "within tolerance" is proved for every tolerance [tol >= 0].  What the
    model keeps from Python is the partiality of the operators: a division
    by zero and a zero base raised to a negative power raise
    [ZeroDivisionError]. *)

From Stdlib Require Import String.
From Stdlib Require Import QArith Qabs Qpower Lqa Lia ZArith List Bool.
From Stdlib Require Import Sorting.Sorted Setoid Morphisms.
Import ListNotations.

Local Open Scope Q_scope.

(** ** Exceptions *)

Module Py.

Inductive exn : Type :=
| ZeroDivisionError.

Inductive result (A : Type) : Type :=
| Ok (a : A)
| Raise (e : exn).

Arguments Ok {A} a.
Arguments Raise {A} e.

Definition bind {A B : Type} (m : result A) (k : A -> result B) : result B :=
  match m with
  | Ok a => k a
  | Raise e => Raise e
  end.

(** [x / y]: true division, which raises on a zero divisor. *)
Definition div (x y : Q) : result Q :=
  if Qeq_bool y 0 then Raise ZeroDivisionError else Ok (x / y).

(** [x ** n] for an integer exponent [n]; zero to a negative power raises. *)
Definition pow (x : Q) (n : Z) : result Q :=
  if (n <? 0)%Z && Qeq_bool x 0 then Raise ZeroDivisionError else Ok (x ^ n).

(** [range(lo, hi)], as the list of its values. *)
Fixpoint range_from (lo : Z) (len : nat) : list Z :=
  match len with
  | O => []
  | S len' => lo :: range_from (lo + 1) len'
  end.

Definition range (lo hi : Z) : list Z := range_from lo (Z.to_nat (hi - lo)).

(** [Series.sum()]: the sum of a column, 0 for an empty one. *)
Definition sum (col : list Q) : Q := fold_left Qplus col 0.

End Py.

Import Py.

Notation "x <- m ;; k" := (bind m (fun x => k))
  (at level 61, m at next level, right associativity).

(** ** The Zephara Xcel (buyback) model *)

(** One row of [simulation_df]; a field per column of the data frame. *)
Record zx_row : Type := mk_zx_row {
  zx_Month : Z;
  zx_EMI : Q;
  zx_Rental_Income : Q;
  zx_Buyback_Amount : Q;
  zx_NBFC_Ownership_pct : Q;
  zx_Customer_Ownership_pct : Q;
  zx_NBFC_Share_Value : Q;
  zx_Customer_Share_Value : Q
}.

Record zx_metrics_t : Type := mk_zx_metrics {
  zx_monthly_payment : Q;
  zx_total_emi_paid : Q;
  zx_total_rental_income : Q;
  zx_total_buyback_amount : Q;
  zx_bank_profit : Q
}.

(** The simulation loop of [zx_simulator], over the months still to run,
    with the two running share values as its state. *)
Fixpoint zx_loop (property_price EMI r : Q) (months : list Z)
    (nbfc_share_value customer_share_value : Q) : result (list zx_row) :=
  match months with
  | [] => Ok []
  | n :: months' =>
      let rental_income := nbfc_share_value * r in
      let buyback_amount := EMI - rental_income in
      let nbfc_share_value := nbfc_share_value - buyback_amount in
      let customer_share_value := customer_share_value + buyback_amount in
      nbfc_frac <- div nbfc_share_value property_price ;;
      customer_frac <- div customer_share_value property_price ;;
      rows <- zx_loop property_price EMI r months'
                nbfc_share_value customer_share_value ;;
      Ok (mk_zx_row n EMI rental_income buyback_amount
            (nbfc_frac * 100) (customer_frac * 100)
            nbfc_share_value customer_share_value :: rows)
  end.

(** "Calculate Metrics" of [zx_simulator]. *)
Definition zx_metrics (EMI : Q) (simulation_df : list zx_row) : zx_metrics_t :=
  let total_emi_paid := sum (map zx_EMI simulation_df) in
  let total_rental_income := sum (map zx_Rental_Income simulation_df) in
  let total_buyback_amount := sum (map zx_Buyback_Amount simulation_df) in
  let bank_profit := total_rental_income in
  mk_zx_metrics EMI total_emi_paid total_rental_income total_buyback_amount
    bank_profit.

(** The EMI formula, shared by both simulators:
    [(principal * r * (1 + r)**T) / ((1 + r)**T - 1)]. *)
Definition emi_formula (principal r : Q) (T : Z) : result Q :=
  p1 <- pow (1 + r) T ;;
  p2 <- pow (1 + r) T ;;
  div (principal * r * p1) (p2 - 1).

Definition zx_simulator (property_price customer_initial_contribution
    annual_rental_yield : Q) (loan_tenure_months : Z)
    : result (list zx_row * zx_metrics_t) :=
  let nbfc_initial_contribution :=
    property_price - customer_initial_contribution in
  let monthly_rental_rate := annual_rental_yield / 12 in
  let T := loan_tenure_months in
  let r := monthly_rental_rate in
  EMI <- emi_formula nbfc_initial_contribution r T ;;
  let nbfc_share_value := nbfc_initial_contribution in
  let customer_share_value := customer_initial_contribution in
  simulation_df <- zx_loop property_price EMI r (range 1 (T + 1))
                     nbfc_share_value customer_share_value ;;
  Ok (simulation_df, zx_metrics EMI simulation_df).

(** ** The traditional loan model *)

Record trad_row : Type := mk_trad_row {
  tr_Month : Z;
  tr_EMI : Q;
  tr_Interest_Paid : Q;
  tr_Principal_Paid : Q;
  tr_Outstanding_Balance : Q
}.

Record trad_metrics_t : Type := mk_trad_metrics {
  tr_monthly_payment : Q;
  tr_total_emi_paid : Q;
  tr_total_interest_paid : Q;
  tr_total_principal_paid : Q;
  tr_bank_profit : Q
}.

(** The simulation loop of [traditional_loan_simulator]; no operation of its
    body can raise. *)
Fixpoint trad_loop (EMI r : Q) (months : list Z) (outstanding_balance : Q)
    : list trad_row :=
  match months with
  | [] => []
  | n :: months' =>
      let interest_payment := outstanding_balance * r in
      let principal_payment := EMI - interest_payment in
      let outstanding_balance := outstanding_balance - principal_payment in
      mk_trad_row n EMI interest_payment principal_payment outstanding_balance
        :: trad_loop EMI r months' outstanding_balance
  end.

(** "Calculate Metrics" of [traditional_loan_simulator]. *)
Definition trad_metrics (EMI : Q) (simulation_df : list trad_row)
    : trad_metrics_t :=
  let total_emi_paid := sum (map tr_EMI simulation_df) in
  let total_interest_paid := sum (map tr_Interest_Paid simulation_df) in
  let total_principal_paid := sum (map tr_Principal_Paid simulation_df) in
  let bank_profit := total_interest_paid in
  mk_trad_metrics EMI total_emi_paid total_interest_paid total_principal_paid
    bank_profit.

Definition traditional_loan_simulator
    (principal_amount annual_interest_rate : Q) (loan_tenure_months : Z) : result (list trad_row * trad_metrics_t) :=
  let r := annual_interest_rate / 12 in
  let T := loan_tenure_months in
  EMI <- emi_formula principal_amount r T ;;
  let outstanding_balance := principal_amount in
  let simulation_df := trad_loop EMI r (range 1 (T + 1)) outstanding_balance in
  Ok (simulation_df, trad_metrics EMI simulation_df).

(** ** [main]: input validation and the two simulator calls *)

(** What a run of [main] ends in: an [st.error] message followed by
    [return], an uncaught exception, or both simulations handed to the
    display code. *)
Inductive main_outcome : Type :=
| Rejected (message : string)
| Crashed (e : exn)
| Displayed (zx_simulation_df : list zx_row) (zx_metrics : zx_metrics_t)
    (traditional_simulation_df : list trad_row)
    (traditional_metrics : trad_metrics_t).

(** [main] from "Validate Inputs" on.  The sidebar values are its
    arguments; the two rates are already divided by 100, and the tenures are
    whole years, as the integer [number_input] widgets return them. *)
Definition main (property_price customer_initial_contribution
    annual_rental_yield : Q) (zx_loan_tenure_years : Z)
    (traditional_interest_rate : Q) (traditional_loan_tenure_years : Z)
    : main_outcome :=
  if Qle_bool property_price customer_initial_contribution then
    Rejected "Error: Customer's initial contribution must be less than the property price."
  else if Qle_bool annual_rental_yield 0 || Qle_bool 1 annual_rental_yield then
    Rejected "Error: Annual rental yield must be between 0% and 100%."
  else if (zx_loan_tenure_years <=? 0)%Z
          || (traditional_loan_tenure_years <=? 0)%Z then
    Rejected "Error: Loan tenure must be a positive number."
  else
    let zx_loan_tenure_months := (zx_loan_tenure_years * 12)%Z in
    let traditional_loan_tenure_months :=
      (traditional_loan_tenure_years * 12)%Z in
    match zx_simulator property_price customer_initial_contribution
            annual_rental_yield zx_loan_tenure_months with
    | Raise e => Crashed e
    | Ok (zx_simulation_df, zx_metrics) =>
        let traditional_principal_amount :=
          property_price - customer_initial_contribution in
        match traditional_loan_simulator traditional_principal_amount
                traditional_interest_rate traditional_loan_tenure_months with
        | Raise e => Crashed e
        | Ok (traditional_simulation_df, traditional_metrics) =>
            Displayed zx_simulation_df zx_metrics
              traditional_simulation_df traditional_metrics
        end
    end.

(** ** The figures *)




Module go.




End go.




(** ** [main] after the simulations: "Display Results" *)




(** * Vocabulary of the properties *)

(** The value of the formula when nothing raises. *)
Definition annuity (principal r : Q) (T : Z) : Q :=
  principal * r * (1 + r) ^ T / ((1 + r) ^ T - 1).

(** ** Orderings of a column *)





(** [x] and [y] agree within [tol]. *)
Definition within (tol x y : Q) : Prop := Qabs (x - y) <= tol.

(** The rows of [zx_loop] when no division raises. *)
Fixpoint zx_rows (property_price EMI r : Q) (months : list Z)
    (nbfc_share_value customer_share_value : Q) : list zx_row :=
  match months with
  | [] => []
  | n :: months' =>
      let rental_income := nbfc_share_value * r in
      let buyback_amount := EMI - rental_income in
      let nbfc_share_value := nbfc_share_value - buyback_amount in
      let customer_share_value := customer_share_value + buyback_amount in
      mk_zx_row n EMI rental_income buyback_amount
        (nbfc_share_value / property_price * 100)
        (customer_share_value / property_price * 100)
        nbfc_share_value customer_share_value
        :: zx_rows property_price EMI r months'
             nbfc_share_value customer_share_value
  end.


(** The inputs the buyback model is meant for. *)
Definition valid_buyback (property_price customer_initial_contribution
    annual_yield_rate : Q) (term_periods : Z) : Prop :=
  0 < property_price
  /\ 0 <= customer_initial_contribution
  /\ customer_initial_contribution < property_price
  /\ 0 < annual_yield_rate /\ annual_yield_rate < 1
  /\ (1 <= term_periods)%Z.

(** The inputs the loan model is meant for; a zero rate is left out, the
    EMI formula raises on it ([emi_formula_zero_rate]). *)
Definition valid_loan (principal annual_interest_rate : Q) (term_periods : Z)
    : Prop :=
  0 < principal /\ 0 < annual_interest_rate /\ (1 <= term_periods)%Z.

(** The payment, and the interest and principal component of the first
    period, of a fixed-loan simulation agree with the given figures within
    [tol]. *)
Definition first_period_figures (tol principal annual : Q) (T : Z)
    (payment interest principal_component : Q) : Prop :=
  exists row rest metrics,
    traditional_loan_simulator principal annual T = Ok (row :: rest, metrics)
    /\ within tol (tr_monthly_payment metrics) payment
    /\ within tol (tr_Interest_Paid row) interest
    /\ within tol (tr_Principal_Paid row) principal_component.

(** What [main] rejects, exactly. *)
Definition rejected_by_main (p c y : Q) (zx_years tr_years : Z) : Prop :=
  p <= c \/ y <= 0 \/ 1 <= y \/ (zx_years <= 0)%Z \/ (tr_years <= 0)%Z.





(** * Properties *)

(** ** The partial operators *)

Lemma pow_nonneg_exp (x : Q) (n : Z) : (0 <= n)%Z -> pow x n = Ok (x ^ n).
Proof.
  intros Hn. unfold pow.
  replace (n <? 0)%Z with false by (symmetry; apply Z.ltb_ge; exact Hn).
  reflexivity.
Qed.

Lemma div_nonzero (x y : Q) : ~ y == 0 -> div x y = Ok (x / y).
Proof.
  intros Hy. unfold div.
  destruct (Qeq_bool y 0) eqn:E; [ | reflexivity ].
  apply Qeq_bool_eq in E. contradiction.
Qed.

Lemma div_zero (x y : Q) : y == 0 -> div x y = Raise ZeroDivisionError.
Proof.
  intros Hy. unfold div.
  apply Qeq_bool_iff in Hy. rewrite Hy. reflexivity.
Qed.

(** ** [range] *)

Lemma range_from_length (lo : Z) (len : nat) :
  length (range_from lo len) = len.
Proof.
  revert lo. induction len as [ | len IH]; intros lo; simpl; [ | rewrite IH ];
    reflexivity.
Qed.

Lemma range_length (lo hi : Z) : length (range lo hi) = Z.to_nat (hi - lo).
Proof. apply range_from_length. Qed.

Lemma range_cons (lo hi : Z) :
  (lo < hi)%Z -> range lo hi = lo :: range (lo + 1) hi.
Proof.
  intros H. unfold range.
  replace (Z.to_nat (hi - lo)) with (S (Z.to_nat (hi - (lo + 1)))) by lia.
  reflexivity.
Qed.

Lemma range_empty (lo hi : Z) : (hi <= lo)%Z -> range lo hi = [].
Proof.
  intros H. unfold range.
  replace (Z.to_nat (hi - lo)) with O by lia. reflexivity.
Qed.

(** ** The EMI formula *)

Lemma growth_gt_1 (r : Q) (T : Z) : 0 < r -> (1 <= T)%Z -> 1 < (1 + r) ^ T.
Proof.
  intros Hr HT. apply Qpower_1_lt; [ lra | lia ].
Qed.

Lemma emi_formula_ok (principal r : Q) (T : Z) :
  0 < r -> (1 <= T)%Z ->
  emi_formula principal r T = Ok (annuity principal r T).
Proof.
  intros Hr HT. unfold emi_formula.
  rewrite pow_nonneg_exp by lia. simpl.
  apply div_nonzero.
  pose proof (growth_gt_1 r T Hr HT) as Hg.
  intros E. rewrite <- (Qplus_0_l 1) in Hg at 1.
  lra.
Qed.

(** With a zero rate the denominator [(1 + 0)**T - 1] is zero. *)
Lemma emi_formula_zero_rate (principal r : Q) (T : Z) :
  r == 0 -> (0 <= T)%Z ->
  emi_formula principal r T = Raise ZeroDivisionError.
Proof.
  intros Hr HT. unfold emi_formula.
  rewrite pow_nonneg_exp by lia. simpl.
  apply div_zero.
  assert (E : 1 + r == 1) by (rewrite Hr; reflexivity).
  rewrite E, Qpower_1. reflexivity.
Qed.





Lemma last_cons_default {A : Type} (x d : A) (l : list A) :
  last (x :: l) d = last l x.
Proof.
  revert x d. induction l as [ | y l IH]; intros x d; [ reflexivity | ].
  change (last (x :: y :: l) d) with (last (y :: l) d).
  rewrite (IH y d), (IH y x). reflexivity.
Qed.

(** ** The loop of the traditional loan *)

Section TradLoop.

Variables EMI r : Q.

Lemma trad_loop_length (months : list Z) (b : Q) :
  length (trad_loop EMI r months b) = length months.
Proof.
  revert b. induction months as [ | n months IH]; intros b; simpl;
    [ | rewrite IH ]; reflexivity.
Qed.

Lemma trad_loop_months (months : list Z) (b : Q) :
  map tr_Month (trad_loop EMI r months b) = months.
Proof.
  revert b. induction months as [ | n months IH]; intros b; simpl;
    [ | rewrite IH ]; reflexivity.
Qed.




End TradLoop.


(** What [traditional_loan_simulator] returns on a positive rate. *)
Lemma traditional_loan_simulator_ok (principal annual : Q) (T : Z) :
  0 < annual -> (1 <= T)%Z ->
  let r := annual / 12 in
  let EMI := annuity principal r T in
  let df := trad_loop EMI r (range 1 (T + 1)) principal in
  traditional_loan_simulator principal annual T
  = Ok (df, trad_metrics EMI df).
Proof.
  intros Ha HT r EMI df.
  unfold traditional_loan_simulator.
  assert (Hr : 0 < annual / 12) by (apply Qlt_shift_div_l; lra).
  rewrite (emi_formula_ok principal (annual / 12) T Hr HT).
  reflexivity.
Qed.


(** ** Column sums *)




(** ** The loop of the buyback model *)

Section ZxLoop.

Variables property_price EMI r : Q.

Lemma zx_loop_ok (months : list Z) (nbfc customer : Q) :
  ~ property_price == 0 ->
  zx_loop property_price EMI r months nbfc customer
  = Ok (zx_rows property_price EMI r months nbfc customer).
Proof.
  intros Hp. revert nbfc customer.
  induction months as [ | n months IH]; intros nbfc customer; simpl.
  - reflexivity.
  - rewrite !div_nonzero by exact Hp. simpl.
    rewrite IH. reflexivity.
Qed.

(** A zero property price stops the loop at its first division. *)
Lemma zx_loop_zero_price (n : Z) (months : list Z) (nbfc customer : Q) :
  property_price == 0 ->
  zx_loop property_price EMI r (n :: months) nbfc customer
  = Raise ZeroDivisionError.
Proof.
  intros Hp. simpl. rewrite div_zero by exact Hp. reflexivity.
Qed.

Lemma zx_rows_length (months : list Z) (nbfc customer : Q) :
  length (zx_rows property_price EMI r months nbfc customer) = length months.
Proof.
  revert nbfc customer.
  induction months as [ | n months IH]; intros nbfc customer; simpl;
    [ | rewrite IH ]; reflexivity.
Qed.

Lemma zx_rows_months (months : list Z) (nbfc customer : Q) :
  map zx_Month (zx_rows property_price EMI r months nbfc customer) = months.
Proof.
  revert nbfc customer.
  induction months as [ | n months IH]; intros nbfc customer; simpl;
    [ | rewrite IH ]; reflexivity.
Qed.



(** The percentages are the values over the property price, times 100. *)
Lemma zx_rows_percentages (months : list Z) (nbfc customer : Q) :
  Forall (fun row =>
            zx_NBFC_Ownership_pct row
            = zx_NBFC_Share_Value row / property_price * 100
            /\ zx_Customer_Ownership_pct row
               = zx_Customer_Share_Value row / property_price * 100)
    (zx_rows property_price EMI r months nbfc customer).
Proof.
  revert nbfc customer.
  induction months as [ | n months IH]; intros nbfc customer; simpl;
    constructor.
  - simpl. split; reflexivity.
  - apply IH.
Qed.




End ZxLoop.

(** What [zx_simulator] returns on a positive rate and a nonzero price. *)
Lemma zx_simulator_ok (property_price contribution annual : Q) (T : Z) :
  ~ property_price == 0 -> 0 < annual -> (1 <= T)%Z ->
  let r := annual / 12 in
  let EMI := annuity (property_price - contribution) r T in
  let df := zx_rows property_price EMI r (range 1 (T + 1))
              (property_price - contribution) contribution in
  zx_simulator property_price contribution annual T
  = Ok (df, zx_metrics EMI df).
Proof.
  intros Hp Ha HT r EMI df.
  unfold zx_simulator.
  assert (Hr : 0 < annual / 12) by (apply Qlt_shift_div_l; lra).
  rewrite (emi_formula_ok _ (annual / 12) T Hr HT). simpl.
  rewrite zx_loop_ok by exact Hp.
  reflexivity.
Qed.


(** Inverting a successful run: the rows are those of [zx_rows]. *)
Lemma zx_loop_inv (property_price EMI r : Q) (months : list Z)
    (nbfc customer : Q) (rows : list zx_row) :
  zx_loop property_price EMI r months nbfc customer = Ok rows ->
  rows = zx_rows property_price EMI r months nbfc customer.
Proof.
  intros H. destruct (Qeq_bool property_price 0) eqn:E.
  - apply Qeq_bool_eq in E. destruct months as [ | n months].
    + simpl in H. injection H as <-. reflexivity.
    + rewrite zx_loop_zero_price in H by exact E. discriminate H.
  - apply Qeq_bool_neq in E. rewrite zx_loop_ok in H by exact E.
    injection H as <-. reflexivity.
Qed.

Lemma zx_simulator_inv (property_price contribution annual : Q) (T : Z)
    (df : list zx_row) (metrics : zx_metrics_t) :
  zx_simulator property_price contribution annual T = Ok (df, metrics) ->
  exists EMI,
    emi_formula (property_price - contribution) (annual / 12) T = Ok EMI
    /\ df = zx_rows property_price EMI (annual / 12) (range 1 (T + 1))
              (property_price - contribution) contribution
    /\ metrics = zx_metrics EMI df.
Proof.
  unfold zx_simulator. intros H.
  destruct (emi_formula _ _ T) as [EMI | e] eqn:HE; [ | discriminate H ].
  simpl in H.
  destruct (zx_loop _ EMI _ _ _ _) as [rows | e] eqn:HL; [ | discriminate H ].
  simpl in H. injection H as <- <-.
  exists EMI. apply zx_loop_inv in HL. subst rows. repeat split.
Qed.

Lemma traditional_loan_simulator_inv (principal annual : Q) (T : Z)
    (df : list trad_row) (metrics : trad_metrics_t) :
  traditional_loan_simulator principal annual T = Ok (df, metrics) ->
  exists EMI,
    emi_formula principal (annual / 12) T = Ok EMI
    /\ df = trad_loop EMI (annual / 12) (range 1 (T + 1)) principal
    /\ metrics = trad_metrics EMI df.
Proof.
  unfold traditional_loan_simulator. intros H.
  destruct (emi_formula _ _ T) as [EMI | e] eqn:HE; [ | discriminate H ].
  simpl in H. injection H as <- <-.
  exists EMI. repeat split.
Qed.



(** Valid inputs give a schedule of [T] rows. *)
Lemma zx_simulator_valid (p c y : Q) (T : Z) :
  valid_buyback p c y T ->
  exists df metrics,
    zx_simulator p c y T = Ok (df, metrics)
    /\ df = zx_rows p (annuity (p - c) (y / 12) T) (y / 12) (range 1 (T + 1))
              (p - c) c
    /\ Z.of_nat (length df) = T.
Proof.
  intros (Hp & Hc0 & Hc & Hy0 & Hy1 & HT).
  assert (Hp0 : ~ p == 0) by lra.
  eexists _, _. split; [ apply zx_simulator_ok; assumption | ].
  split; [ reflexivity | ].
  rewrite zx_rows_length, range_length. lia.
Qed.

Lemma traditional_loan_simulator_valid (P a : Q) (T : Z) :
  valid_loan P a T ->
  exists df metrics,
    traditional_loan_simulator P a T = Ok (df, metrics)
    /\ df = trad_loop (annuity P (a / 12) T) (a / 12) (range 1 (T + 1)) P
    /\ Z.of_nat (length df) = T.
Proof.
  intros (HP & Ha & HT).
  eexists _, _. split; [ apply traditional_loan_simulator_ok; assumption | ].
  split; [ reflexivity | ].
  rewrite trad_loop_length, range_length. lia.
Qed.






(** ** The zero rate and the input checks *)



Lemma main_rejected_iff (p c y : Q) (zx_years : Z) (rate : Q) (tr_years : Z) :
  (exists message, main p c y zx_years rate tr_years = Rejected message)
  <-> rejected_by_main p c y zx_years tr_years.
Proof.
  unfold main, rejected_by_main.
  destruct (Qle_bool p c) eqn:Ec.
  { apply Qle_bool_iff in Ec. split; [ intros _; left; exact Ec | ].
    intros _. eexists; reflexivity. }
  destruct (Qle_bool y 0) eqn:Ey0.
  { apply Qle_bool_iff in Ey0. split; [ intros _; right; left; exact Ey0 | ].
    intros _. eexists; reflexivity. }
  destruct (Qle_bool 1 y) eqn:Ey1.
  { apply Qle_bool_iff in Ey1.
    split; [ intros _; right; right; left; exact Ey1 | ].
    intros _. eexists; reflexivity. }
  assert (Hc : ~ p <= c) by (rewrite <- Qle_bool_iff, Ec; discriminate).
  assert (Hy0 : ~ y <= 0) by (rewrite <- Qle_bool_iff, Ey0; discriminate).
  assert (Hy1 : ~ 1 <= y) by (rewrite <- Qle_bool_iff, Ey1; discriminate).
  cbn [orb].
  destruct ((zx_years <=? 0)%Z || (tr_years <=? 0)%Z) eqn:Et.
  { split; [ intros _ | intros _; eexists; reflexivity ].
    apply orb_true_iff in Et. destruct Et as [Et | Et]; apply Z.leb_le in Et;
      tauto. }
  apply orb_false_iff in Et. destruct Et as [Ez Et].
  apply Z.leb_gt in Ez, Et.
  split.
  - intros [message H].
    destruct (zx_simulator p c y (zx_years * 12)) as [[zdf zm] | e];
      [ | discriminate H ].
    destruct (traditional_loan_simulator (p - c) rate (tr_years * 12))
      as [[tdf tm] | e]; discriminate H.
  - intros [H | [H | [H | [H | H]]]]; try contradiction; lia.
Qed.

(** C4, as the code has it.  The checks are [main]'s: it ends in an error
    message, with no simulator called and no schedule, on every input with
    the contribution at or above the property price, with the annual yield
    [<= 0] or [>= 1], or with a tenure [<= 0]. *)
Theorem main_rejects_invalid_buyback_inputs (p c y : Q) (zx_years : Z)
    (rate : Q) (tr_years : Z) :
  p <= c \/ y <= 0 \/ 1 <= y \/ (zx_years <= 0)%Z \/ (tr_years <= 0)%Z ->
  exists message, main p c y zx_years rate tr_years = Rejected message.
Proof.
  intros H. apply main_rejected_iff. exact H.
Qed.

(** What gets past [main]'s checks is a valid input of the buyback model,
    with a term of at least 12 months, whenever the contribution is not
    negative. *)
Lemma main_passes_valid_buyback (p c y : Q) (zx_years tr_years : Z) :
  ~ rejected_by_main p c y zx_years tr_years -> 0 <= c ->
  valid_buyback p c y (zx_years * 12) /\ (12 <= zx_years * 12)%Z.
Proof.
  unfold rejected_by_main, valid_buyback. intros H Hc.
  assert (H1 : ~ p <= c) by tauto.
  assert (H2 : ~ y <= 0) by tauto.
  assert (H3 : ~ 1 <= y) by tauto.
  assert (H4 : ~ (zx_years <= 0)%Z) by tauto.
  apply Qnot_le_lt in H1, H2, H3.
  repeat split; try assumption; try lia.
  apply Qle_lt_trans with c; assumption.
Qed.

(** Inputs that pass the checks, with a contribution that is not negative
    and a positive loan rate, reach the display code with both schedules. *)
Lemma main_displays (p c y : Q) (zx_years : Z) (rate : Q) (tr_years : Z) :
  ~ rejected_by_main p c y zx_years tr_years -> 0 <= c -> 0 < rate ->
  exists zx_df zx_m tr_df tr_m,
    main p c y zx_years rate tr_years = Displayed zx_df zx_m tr_df tr_m
    /\ zx_simulator p c y (zx_years * 12) = Ok (zx_df, zx_m)
    /\ traditional_loan_simulator (p - c) rate (tr_years * 12)
       = Ok (tr_df, tr_m).
Proof.
  intros Hrej Hc Hrate.
  destruct (main_passes_valid_buyback p c y zx_years tr_years Hrej Hc)
    as [Hv _].
  destruct (zx_simulator_valid _ _ _ _ Hv) as (zdf & zm & Hz & _ & _).
  assert (Ht : valid_loan (p - c) rate (tr_years * 12)).
  { unfold rejected_by_main in Hrej. destruct Hv as (_ & _ & Hlt & _).
    repeat split; [ lra | exact Hrate | ].
    assert (~ (tr_years <= 0)%Z) by tauto. lia. }
  destruct (traditional_loan_simulator_valid _ _ _ Ht)
    as (tdf & tm & Htr & _ & _).
  exists zdf, zm, tdf, tm. split; [ | split; assumption ].
  unfold main.
  destruct (Qle_bool p c) eqn:Ec.
  { apply Qle_bool_iff in Ec. exfalso. apply Hrej. left. exact Ec. }
  destruct (Qle_bool y 0 || Qle_bool 1 y) eqn:Ey.
  { apply orb_true_iff in Ey. exfalso. apply Hrej.
    destruct Ey as [Ey | Ey]; apply Qle_bool_iff in Ey;
      [ right; left | right; right; left ]; exact Ey. }
  destruct ((zx_years <=? 0)%Z || (tr_years <=? 0)%Z) eqn:Et.
  { apply orb_true_iff in Et. exfalso. apply Hrej.
    destruct Et as [Et | Et]; apply Z.leb_le in Et;
      [ right; right; right; left | right; right; right; right ]; exact Et. }
  rewrite Hz, Htr. reflexivity.
Qed.

(** With a rate of exactly 0 both simulators raise, for every principal and
    every term [T >= 0]. *)
Lemma zero_rate_raises (p c P : Q) (T : Z) :
  (0 <= T)%Z ->
  zx_simulator p c 0 T = Raise ZeroDivisionError
  /\ traditional_loan_simulator P 0 T = Raise ZeroDivisionError.
Proof.
  intros HT. unfold zx_simulator, traditional_loan_simulator.
  rewrite !emi_formula_zero_rate by (try reflexivity; exact HT).
  split; reflexivity.
Qed.

(** With a term [T <= 0] the loops do not run: a returned schedule has no
    rows. *)
Lemma nonpositive_term_no_rows (p c y P a : Q) (T : Z)
    (zx_df : list zx_row) (zx_m : zx_metrics_t)
    (tr_df : list trad_row) (tr_m : trad_metrics_t) :
  (T <= 0)%Z ->
  (zx_simulator p c y T = Ok (zx_df, zx_m) -> zx_df = [])
  /\ (traditional_loan_simulator P a T = Ok (tr_df, tr_m) -> tr_df = []).
Proof.
  intros HT. split; intros H.
  - apply zx_simulator_inv in H. destruct H as (EMI & _ & -> & _).
    rewrite range_empty by lia. reflexivity.
  - apply traditional_loan_simulator_inv in H.
    destruct H as (EMI & _ & -> & _).
    rewrite range_empty by lia. reflexivity.
Qed.

(** ** The concrete loan: 8,000,000 at 7% over 240 months *)

(** The first row of the schedule and the payment, on a positive rate. *)
Lemma traditional_loan_simulator_first_row (P a : Q) (T : Z) :
  0 < a -> (1 <= T)%Z ->
  let r := a / 12 in
  let EMI := annuity P r T in
  exists rest metrics,
    traditional_loan_simulator P a T
    = Ok (mk_trad_row 1 EMI (P * r) (EMI - P * r) (P - (EMI - P * r)) :: rest,
          metrics)
    /\ tr_monthly_payment metrics = EMI.
Proof.
  intros Ha HT r EMI.
  rewrite traditional_loan_simulator_ok by assumption.
  fold r. fold EMI.
  rewrite (range_cons 1 (T + 1)) by lia.
  cbn [trad_loop].
  eexists _, _. split; reflexivity.
Qed.

Lemma within_decide (tol x y : Q) :
  Qle_bool (Qabs (x - y)) tol = true -> within tol x y.
Proof. intros H. apply Qle_bool_iff. exact H. Qed.

Lemma not_within_decide (tol x y : Q) :
  Qle_bool (Qabs (x - y)) tol = false -> ~ within tol x y.
Proof.
  intros H Hw. apply Qle_bool_iff in Hw. unfold within in Hw.
  rewrite Hw in H. discriminate H.
Qed.

(** C8, as the code has it.  For principal 8,000,000, annual rate 0.07 and
    240 periods, the monthly payment is 62,023.91, the first period's
    interest 46,666.67 and its principal component 15,357.25, each to the
    cent (within half a cent). *)
Theorem fixed_loan_concrete_scenario :
  first_period_figures (5 # 1000) 8000000 (7 # 100) 240
    (6202391 # 100) (4666667 # 100) (1535725 # 100).
Proof.
  destruct (traditional_loan_simulator_first_row 8000000 (7 # 100) 240)
    as (rest & metrics & Hrun & Hpay); [ reflexivity | lia | ].
  unfold first_period_figures. eexists _, rest, metrics.
  split; [ exact Hrun | ].
  rewrite Hpay. cbn [tr_Interest_Paid tr_Principal_Paid].
  repeat split; apply within_decide; vm_compute; reflexivity.
Qed.

(** The figures 62,023.76 and 15,357.09 for the payment and the principal
    component are off by more than 0.15. *)
Lemma spec_figures_off_by_fifteen_paise :
  ~ first_period_figures (15 # 100) 8000000 (7 # 100) 240
      (6202376 # 100) (4666667 # 100) (1535709 # 100).
Proof.
  intros (row & rest & metrics & Hrun & Hpay & _ & _).
  destruct (traditional_loan_simulator_first_row 8000000 (7 # 100) 240)
    as (rest' & metrics' & Hrun' & Hpay'); [ reflexivity | lia | ].
  rewrite Hrun' in Hrun. injection Hrun as _ _ <-.
  rewrite Hpay' in Hpay. revert Hpay.
  apply not_within_decide. vm_compute. reflexivity.
Qed.

(** ** Aggregation *)

(** C9, as the code has it.  The metrics of a schedule with zero rows are
    the payment and totals of 0: no error is raised.  Aggregation has no
    error path at all: once the payment and the rows are computed, the
    simulators return them with their metrics. *)
Theorem aggregation_never_fails (p c y P a : Q) (T T' : Z) (EMI EMI' : Q)
    (rows : list zx_row) :
  emi_formula (p - c) (y / 12) T = Ok EMI ->
  zx_loop p EMI (y / 12) (range 1 (T + 1)) (p - c) c = Ok rows ->
  emi_formula P (a / 12) T' = Ok EMI' ->
  zx_metrics EMI [] = mk_zx_metrics EMI 0 0 0 0
  /\ trad_metrics EMI' [] = mk_trad_metrics EMI' 0 0 0 0
  /\ zx_simulator p c y T = Ok (rows, zx_metrics EMI rows)
  /\ exists df,
       traditional_loan_simulator P a T' = Ok (df, trad_metrics EMI' df).
Proof.
  intros HE HL HE'. split; [ reflexivity | ]. split; [ reflexivity | ].
  unfold zx_simulator, traditional_loan_simulator.
  rewrite HE, HE'. simpl. rewrite HL. simpl.
  split; [ reflexivity | eexists; reflexivity ].
Qed.

(** ** What the code does not do *)


(** [zx_simulator] checks nothing: with the contribution above the price,
    with a yield of 200%, and with a negative term it returns a schedule. *)
Lemma zx_simulator_accepts_invalid_inputs :
  (100 <= 200
   /\ exists df metrics,
        zx_simulator 100 200 (5 # 100) 2 = Ok (df, metrics)
        /\ length df = 2%nat)
  /\ (1 <= 2
      /\ exists df metrics,
           zx_simulator 100 20 2 2 = Ok (df, metrics) /\ length df = 2%nat)
  /\ ((-1 <= 0)%Z
      /\ exists metrics, zx_simulator 100 20 (5 # 100) (-1) = Ok ([], metrics)).
Proof.
  split; [ | split ]; (split; [ vm_compute; discriminate | ]).
  - eexists _, _. split; [ vm_compute; reflexivity | reflexivity ].
  - eexists _, _. split; [ vm_compute; reflexivity | reflexivity ].
  - eexists. vm_compute. reflexivity.
Qed.

(** With a negative term both simulators aggregate a schedule with zero
    rows, and return totals of 0. *)
Lemma empty_schedule_is_aggregated :
  (exists EMI,
     zx_simulator 100 20 (5 # 100) (-1) = Ok ([], mk_zx_metrics EMI 0 0 0 0))
  /\ (exists EMI,
        traditional_loan_simulator 80 (5 # 100) (-1)
        = Ok ([], mk_trad_metrics EMI 0 0 0 0)).
Proof.
  split; eexists; vm_compute; reflexivity.
Qed.

(** ** The theorems at concrete inputs *)




Lemma main_rejects_invalid_buyback_inputs_witness :
  (100 <= 100 \/ 35 # 1000 <= 0 \/ 1 <= 35 # 1000
   \/ (20 <= 0)%Z \/ (20 <= 0)%Z)
  /\ exists message,
       main 100 100 (35 # 1000) 20 (7 # 100) 20 = Rejected message.
Proof.
  assert (H : 100 <= 100 \/ 35 # 1000 <= 0 \/ 1 <= 35 # 1000
              \/ (20 <= 0)%Z \/ (20 <= 0)%Z)
    by (left; vm_compute; discriminate).
  split; [ exact H | ].
  apply (main_rejects_invalid_buyback_inputs 100 100 (35 # 1000) 20
           (7 # 100) 20 H).
Defined.




Lemma aggregation_never_fails_witness :
  exists EMI rows EMI',
    (emi_formula (100 - 20) ((6 # 100) / 12) 2 = Ok EMI
     /\ zx_loop 100 EMI ((6 # 100) / 12) (range 1 (2 + 1)) (100 - 20) 20
        = Ok rows
     /\ emi_formula 1200 ((12 # 100) / 12) 3 = Ok EMI')
    /\ zx_metrics EMI [] = mk_zx_metrics EMI 0 0 0 0
    /\ trad_metrics EMI' [] = mk_trad_metrics EMI' 0 0 0 0
    /\ zx_simulator 100 20 (6 # 100) 2 = Ok (rows, zx_metrics EMI rows)
    /\ exists df,
         traditional_loan_simulator 1200 (12 # 100) 3
         = Ok (df, trad_metrics EMI' df).
Proof.
  exists (annuity (100 - 20) ((6 # 100) / 12) 2),
    (zx_rows 100 (annuity (100 - 20) ((6 # 100) / 12) 2) ((6 # 100) / 12)
       (range 1 (2 + 1)) (100 - 20) 20),
    (annuity 1200 ((12 # 100) / 12) 3).
  refine ((fun HE HL HE' =>
             conj (conj HE (conj HL HE'))
               (aggregation_never_fails 100 20 (6 # 100) 1200 (12 # 100) 2 3
                  _ _ _ HE HL HE')) _ _ _);
    vm_compute; reflexivity.
Defined.


(** * Further properties of the simulators *)

(** ** Arithmetic helpers *)








Lemma Forall_last {A : Type} (P : A -> Prop) (l : list A) (x d : A) :
  Forall P (x :: l) -> P (last (x :: l) d).
Proof.
  intros H. rewrite Forall_forall in H. apply H.
  rewrite last_cons_default.
  revert x H. induction l as [ | y l IH]; intros x H.
  - left. reflexivity.
  - right. rewrite last_cons_default. apply IH.
    intros z Hz. apply H. right. exact Hz.
Qed.

(** ** Every row of the loan schedule in closed form *)

Section TradRows.

Variables EMI r : Q.






End TradRows.











(** ** The buyback schedule, through the loan it mirrors *)











(** ** When the simulators raise *)












(** ** How the payment depends on the rate and on the term *)















(** ** [main], from the checks to the display *)






(** ** The shape of a returned schedule *)

Lemma zx_rows_emi (p EMI r : Q) (months : list Z) (nbfc customer : Q) :
  Forall (fun row => zx_EMI row = EMI)
    (zx_rows p EMI r months nbfc customer).
Proof.
  revert nbfc customer.
  induction months as [ | n months IH]; intros nbfc customer; simpl;
    constructor; [ reflexivity | apply IH ].
Qed.

Lemma trad_loop_emi (EMI r : Q) (months : list Z) (b : Q) :
  Forall (fun row => tr_EMI row = EMI) (trad_loop EMI r months b).
Proof.
  revert b. induction months as [ | n months IH]; intros b; simpl;
    constructor; [ reflexivity | apply IH ].
Qed.

(** X15.  Whatever the inputs, a schedule a simulator returns has its rows
    numbered 1, 2, ..., T in order, every row carries the monthly payment
    the metrics report, and in a buyback row each ownership percentage is
    the share value over the property price, times 100. *)
Theorem returned_schedules_shape (p c y P a : Q) (T T' : Z)
    (zx_df : list zx_row) (zx_m : zx_metrics_t)
    (tr_df : list trad_row) (tr_m : trad_metrics_t) :
  zx_simulator p c y T = Ok (zx_df, zx_m) ->
  traditional_loan_simulator P a T' = Ok (tr_df, tr_m) ->
  (map zx_Month zx_df = range 1 (T + 1)
   /\ Forall (fun row =>
                zx_EMI row = zx_monthly_payment zx_m
                /\ zx_NBFC_Ownership_pct row
                   = zx_NBFC_Share_Value row / p * 100
                /\ zx_Customer_Ownership_pct row
                   = zx_Customer_Share_Value row / p * 100) zx_df)
  /\ (map tr_Month tr_df = range 1 (T' + 1)
      /\ Forall (fun row => tr_EMI row = tr_monthly_payment tr_m) tr_df).
Proof.
  intros Hz Ht.
  apply zx_simulator_inv in Hz. destruct Hz as (EMI & _ & -> & ->).
  apply traditional_loan_simulator_inv in Ht.
  destruct Ht as (EMI' & _ & -> & ->).
  split; split.
  - apply zx_rows_months.
  - cbn [zx_metrics zx_monthly_payment].
    assert (H1 := zx_rows_emi p EMI (y / 12) (range 1 (T + 1)) (p - c) c).
    assert (H2 := zx_rows_percentages p EMI (y / 12) (range 1 (T + 1))
                    (p - c) c).
    rewrite Forall_forall in *. intros row Hrow.
    split; [ apply H1; exact Hrow | apply H2; exact Hrow ].
  - apply trad_loop_months.
  - apply trad_loop_emi.
Qed.

(** ** The figures *)








(** ** The further properties at concrete inputs *)


















Lemma returned_schedules_shape_witness :
  exists zx_df zx_m tr_df tr_m,
    (zx_simulator 100 20 (6 # 100) 2 = Ok (zx_df, zx_m)
     /\ traditional_loan_simulator 1200 (12 # 100) 3 = Ok (tr_df, tr_m))
    /\ (map zx_Month zx_df = range 1 (2 + 1)
        /\ Forall (fun row =>
                     zx_EMI row = zx_monthly_payment zx_m
                     /\ zx_NBFC_Ownership_pct row
                        = zx_NBFC_Share_Value row / 100 * 100
                     /\ zx_Customer_Ownership_pct row
                        = zx_Customer_Share_Value row / 100 * 100) zx_df)
    /\ (map tr_Month tr_df = range 1 (3 + 1)
        /\ Forall (fun row => tr_EMI row = tr_monthly_payment tr_m) tr_df).
Proof.
  exists (zx_rows 100 (annuity (100 - 20) ((6 # 100) / 12) 2) ((6 # 100) / 12)
            (range 1 (2 + 1)) (100 - 20) 20),
    (zx_metrics (annuity (100 - 20) ((6 # 100) / 12) 2)
       (zx_rows 100 (annuity (100 - 20) ((6 # 100) / 12) 2) ((6 # 100) / 12)
          (range 1 (2 + 1)) (100 - 20) 20)),
    (trad_loop (annuity 1200 ((12 # 100) / 12) 3) ((12 # 100) / 12)
       (range 1 (3 + 1)) 1200),
    (trad_metrics (annuity 1200 ((12 # 100) / 12) 3)
       (trad_loop (annuity 1200 ((12 # 100) / 12) 3) ((12 # 100) / 12)
          (range 1 (3 + 1)) 1200)).
  refine ((fun Hz Ht =>
             conj (conj Hz Ht)
               (returned_schedules_shape 100 20 (6 # 100) 1200 (12 # 100) 2 3
                  _ _ _ _ Hz Ht)) _ _);
    vm_compute; reflexivity.
Defined.

